(** * cgt execution core: data model of [include/execution.h]

    The header declares the callables that wrap native kernels, memory
    locations, the five instruction classes, the execution graph, the
    interpreter interface and the native profiler.  Each class is embedded
    as a module holding a record, its constructors and its member
    functions; the theorems about them follow the definitions. *)

From Stdlib Require Import PrimFloat ZArith NArith.
From stdpp Require Import gmap strings list fin_maps sorting.

Local Open Scope Z_scope.

(** ** Types of [cgt_common.h] *)

(** Modelled from the spec: [cgt_common.h] is not part of the sources; the
    device tag is the enumeration {CPU, GPU}. *)
Inductive cgtDevtype := cgtCPU | cgtGPU.

(** Modelled from the spec: [cgtDtype] of [cgt_common.h] is an enum of
    element types; only its integer code is kept. *)
Definition cgtDtype : Type := Z.

(** [void*]: an opaque address, [NULL] is 0. *)
Definition voidp : Type := N.
Definition NULL : voidp := 0%N.

(** Modelled from the spec: the object behind a [cgtObject*] handle is
    either an n-dimensional array or a tuple of objects.  An array carries
    its element type, device, shape and, once written, its elements (raw
    element codes); a freshly allocated array is uninitialised. *)
#[local] Unset Elimination Schemes.
Inductive cgtObject :=
| cgtArray (dtype : cgtDtype) (devtype : cgtDevtype) (shape : list N)
           (data : option (list Z))
| cgtTuple (items : list cgtObject).
#[local] Set Elimination Schemes.

(** Modelled from the spec: the two kernel signatures of [cgt_common.h],
    [ByRefFun = fn(data, reads, write) -> void] and
    [ByValFun = fn(data, reads) -> Object*].  A by-reference kernel returns
    nothing and writes its output buffer in place: its model maps the
    buffer before the call to the buffer after it. *)
Definition cgtByRefFun : Type := voidp → list cgtObject → cgtObject → cgtObject.
Definition cgtByValFun : Type := voidp → list cgtObject → cgtObject.

(** Outcome of a call through a function pointer held by a callable. *)
Inductive called (A : Type) :=
| Returned (a : A)
| NullFunctionPointer.
Arguments Returned {A} a.
Arguments NullFunctionPointer {A}.

(** ** Callables *)

Module ByRefCallable.
Record t := mk { fptr : option cgtByRefFun; data : voidp }.

(** [ByRefCallable(cgtByRefFun fptr, void* data)] *)
Definition make (fptr : option cgtByRefFun) (data : voidp) : t := mk fptr data.
(** [ByRefCallable()] *)
Definition default : t := mk None NULL.

(** [void operator()(cgtObject ** reads, cgtObject * write)]: the result
    pairs the (absent) return value with the buffer left in [write]. *)
Definition call (c : t) (reads : list cgtObject) (write : cgtObject)
  : called (unit * cgtObject) :=
  match fptr c with
  | Some f => Returned (tt, f (data c) reads write)
  | None => NullFunctionPointer
  end.
End ByRefCallable.

Module ByValCallable.
Record t := mk { fptr : option cgtByValFun; data : voidp }.

(** [ByValCallable(cgtByValFun fptr, void* data)] *)
Definition make (fptr : option cgtByValFun) (data : voidp) : t := mk fptr data.
(** [ByValCallable()] *)
Definition default : t := mk None NULL.

(** [cgtObject * operator()(cgtObject ** args)] *)
Definition call (c : t) (args : list cgtObject) : called cgtObject :=
  match fptr c with
  | Some f => Returned (f (data c) args)
  | None => NullFunctionPointer
  end.
End ByValCallable.

(** ** Memory locations *)

Module MemLocation.
Record t := mk { index : N; devtype : cgtDevtype }.

(** [MemLocation()] *)
Definition default : t := mk 0%N cgtCPU.
(** [MemLocation(size_t index, cgtDevtype devtype)] *)
Definition make (index : N) (devtype : cgtDevtype) : t := mk index devtype.
End MemLocation.

(** ** Instructions *)

Inductive InstructionKind :=
| LoadArgumentKind
| AllocKind
| BuildTupKind
| ReturnByRefKind
| ReturnByValKind.

Module Instruction.
(** The fields of the base class, set by
    [Instruction(kind, repr, pyinstr_hash, quick)]. *)
Record base := Base {
  kind_ : InstructionKind;
  repr_ : string;
  pyinstr_hash_ : Z;
  quick_ : bool
}.

(** One constructor per derived class, with the base sub-object and the
    private members of the class. *)
Inductive t :=
| OfLoadArgument (b : base) (ind : Z) (readlocs : list MemLocation.t)
                 (writeloc : MemLocation.t)
| OfAlloc (b : base) (dtype : cgtDtype) (readlocs : list MemLocation.t)
          (writeloc : MemLocation.t)
| OfBuildTup (b : base) (readlocs : list MemLocation.t)
             (writeloc : MemLocation.t)
| OfReturnByRef (b : base) (readlocs : list MemLocation.t)
                (writeloc : MemLocation.t) (callable : ByRefCallable.t)
| OfReturnByVal (b : base) (readlocs : list MemLocation.t)
                (writeloc : MemLocation.t) (callable : ByValCallable.t).

Definition base_of (i : t) : base :=
  match i with
  | OfLoadArgument b _ _ _ | OfAlloc b _ _ _ | OfBuildTup b _ _
  | OfReturnByRef b _ _ _ | OfReturnByVal b _ _ _ => b
  end.

Definition repr (i : t) : string := repr_ (base_of i).
Definition pyinstr_hash (i : t) : Z := pyinstr_hash_ (base_of i).
Definition kind (i : t) : InstructionKind := kind_ (base_of i).
Definition quick (i : t) : bool := quick_ (base_of i).

(** The virtual [get_readlocs] and [get_writeloc], overridden alike in
    the five classes. *)
Definition get_readlocs (i : t) : list MemLocation.t :=
  match i with
  | OfLoadArgument _ _ r _ | OfAlloc _ _ r _ | OfBuildTup _ r _
  | OfReturnByRef _ r _ _ | OfReturnByVal _ r _ _ => r
  end.

Definition get_writeloc (i : t) : MemLocation.t :=
  match i with
  | OfLoadArgument _ _ _ w | OfAlloc _ _ _ w | OfBuildTup _ _ w
  | OfReturnByRef _ _ w _ | OfReturnByVal _ _ w _ => w
  end.
End Instruction.

(** The constructors of the five instruction classes. *)

Definition LoadArgument (repr : string) (pyinstr_hash : Z) (ind : Z)
    (writeloc : MemLocation.t) : Instruction.t :=
  Instruction.OfLoadArgument
    (Instruction.Base LoadArgumentKind repr pyinstr_hash true) ind [] writeloc.

Definition Alloc (repr : string) (pyinstr_hash : Z) (dtype : cgtDtype)
    (readlocs : list MemLocation.t) (writeloc : MemLocation.t) : Instruction.t :=
  Instruction.OfAlloc
    (Instruction.Base AllocKind repr pyinstr_hash true) dtype readlocs writeloc.

Definition BuildTup (repr : string) (pyinstr_hash : Z)
    (readlocs : list MemLocation.t) (writeloc : MemLocation.t) : Instruction.t :=
  Instruction.OfBuildTup
    (Instruction.Base BuildTupKind repr pyinstr_hash true) readlocs writeloc.

Definition ReturnByRef (repr : string) (pyinstr_hash : Z)
    (readlocs : list MemLocation.t) (writeloc : MemLocation.t)
    (callable : ByRefCallable.t) (quick : bool) : Instruction.t :=
  Instruction.OfReturnByRef
    (Instruction.Base ReturnByRefKind repr pyinstr_hash quick)
    readlocs writeloc callable.

Definition ReturnByVal (repr : string) (pyinstr_hash : Z)
    (readlocs : list MemLocation.t) (writeloc : MemLocation.t)
    (callable : ByValCallable.t) (quick : bool) : Instruction.t :=
  Instruction.OfReturnByVal
    (Instruction.Base ReturnByValKind repr pyinstr_hash quick)
    readlocs writeloc callable.

(** ** Execution graph *)

Module ExecutionGraph.
Record t := mk {
  instrs_ : list Instruction.t;
  n_args_ : N;
  n_locs_ : N
}.

(** [ExecutionGraph(instrs, n_args, n_locs)] *)
Definition make (instrs : list Instruction.t) (n_args n_locs : N) : t :=
  mk instrs n_args n_locs.

Definition instrs (g : t) : list Instruction.t := instrs_ g.
Definition n_args (g : t) : N := n_args_ g.
Definition n_locs (g : t) : N := n_locs_ g.
Definition n_instrs (g : t) : N := N.of_nat (length (instrs_ g)).

(** The public member functions that can be called on a live graph, all
    of them [const]; a call returns its value and the graph it leaves. *)
Inductive method := Instrs | NArgs | NLocs | NInstrs.

Inductive value :=
| VInstrs (l : list Instruction.t)
| VSize (n : N).

Definition call (m : method) (g : t) : value * t :=
  match m with
  | Instrs => (VInstrs (instrs g), g)
  | NArgs => (VSize (n_args g), g)
  | NLocs => (VSize (n_locs g), g)
  | NInstrs => (VSize (n_instrs g), g)
  end.

(** The graph left by a sequence of calls. *)
Definition after (ms : list method) (g : t) : t :=
  foldl (λ g m, (call m g).2) g ms.
End ExecutionGraph.

(** ** Native profiler *)

(** The arithmetic of the profiler's [double] fields: the type of the
    numbers, the constant [0.0] and [+].  The program runs on
    [ieee_double]; [exact_Z] is an arithmetic without rounding. *)
Record arith := Arith {
  num : Type;
  zero : num;
  add : num → num → num
}.

Definition ieee_double : arith := Arith float 0%float PrimFloat.add.
Definition exact_Z : arith := Arith Z 0 Z.add.

(** [int] addition, on the 32-bit two's-complement range. *)
Definition int_add (a b : Z) : Z := (a + b + 2 ^ 31) mod 2 ^ 32 - 2 ^ 31.

(** An [Instruction*]: the address, which is the key of [instr2stats], and
    the instruction it points to. *)
Record InstructionPtr := {
  addr : N;
  target : Instruction.t
}.

Module InstructionStats.
Record t {D : arith} := mk {
  instr_repr : string;
  pyinstr_hash : Z;
  count : Z;
  time_total : num D
}.
Arguments t : clear implicits.
Arguments mk {D} _ _ _ _.
End InstructionStats.

(** Order of the entries of a [std::map] keyed by addresses. *)
Definition key_le {V : Type} (a b : N * V) : Prop := (a.1 ≤ b.1)%N.

#[global] Instance key_le_dec {V : Type} : RelDecision (@key_le V).
Proof. intros a b. unfold key_le. apply _. Defined.

Module NativeProfiler.
Section arithmetic.
Context {D : arith}.

Record t := mk {
  on : bool;
  t_total : num D;
  instr2stats : gmap N (InstructionStats.t D)
}.

(** The static [native_profiler], zero-initialised. *)
Definition native_profiler : t := mk false (zero D) ∅.

Definition start (p : t) : t := mk true (t_total p) (instr2stats p).
Definition stop (p : t) : t := mk false (t_total p) (instr2stats p).
Definition is_on (p : t) : bool := on p.

(** The record stored on the first update of an instruction. *)
Definition fresh (instr : InstructionPtr) (elapsed : num D)
  : InstructionStats.t D :=
  InstructionStats.mk (Instruction.repr (target instr))
    (Instruction.pyinstr_hash (target instr)) 1 elapsed.

(** [count += 1; time_total += elapsed] on an existing record. *)
Definition bump (r : InstructionStats.t D) (elapsed : num D)
  : InstructionStats.t D :=
  InstructionStats.mk (InstructionStats.instr_repr r)
    (InstructionStats.pyinstr_hash r)
    (int_add (InstructionStats.count r) 1)
    (add D (InstructionStats.time_total r) elapsed).

Definition update (instr : InstructionPtr) (elapsed : num D) (p : t) : t :=
  mk (on p)
     (add D (t_total p) elapsed)
     (match instr2stats p !! addr instr with
      | None => <[addr instr := fresh instr elapsed]> (instr2stats p)
      | Some r => <[addr instr := bump r elapsed]> (instr2stats p)
      end).

Definition clear_stats (p : t) : t := mk (on p) (zero D) ∅.

Definition get_t_total (p : t) : num D := t_total p.

(** [get_instr_stats]: the records in the iteration order of the
    [std::map], by increasing key. *)
Definition get_instr_stats (p : t) : list (InstructionStats.t D) :=
  snd <$> merge_sort key_le (map_to_list (instr2stats p)).

(** The sum of [time_total] over all records. *)
Definition accumulate (_ : N) (r : InstructionStats.t D) (acc : num D) : num D :=
  add D acc (InstructionStats.time_total r).

Definition stats_sum (p : t) : num D :=
  map_fold accumulate (zero D) (instr2stats p).

(** The operations that change the profiler. *)
Inductive op :=
| Start
| Stop
| Update (instr : InstructionPtr) (elapsed : num D)
| ClearStats.

Definition apply (p : t) (o : op) : t :=
  match o with
  | Start => start p
  | Stop => stop p
  | Update instr elapsed => update instr elapsed p
  | ClearStats => clear_stats p
  end.

Definition run (ops : list op) (p : t) : t := foldl apply p ops.
End arithmetic.
Arguments t : clear implicits.
Arguments op : clear implicits.
End NativeProfiler.

(** Two instructions and their timings: [a] takes 0.1 s, [b] takes 0.2 s
    and then 0.3 s. *)
Definition instr_a : InstructionPtr :=
  {| addr := 4096;
     target := LoadArgument "a" 1 0 (MemLocation.make 0 cgtCPU) |}.
Definition instr_b : InstructionPtr :=
  {| addr := 8192;
     target := LoadArgument "b" 2 1 (MemLocation.make 1 cgtCPU) |}.

(** The doubles nearest to 0.1, 0.2 and 0.3. *)
Definition d0_1 : float := 0x1.999999999999ap-4%float.
Definition d0_2 : float := 0x1.999999999999ap-3%float.
Definition d0_3 : float := 0x1.3333333333333p-2%float.

Definition timings_double : list (NativeProfiler.op ieee_double) :=
  [ NativeProfiler.Update (D:=ieee_double) instr_a d0_1;
    NativeProfiler.Update (D:=ieee_double) instr_b d0_2;
    NativeProfiler.Update (D:=ieee_double) instr_b d0_3 ].

Definition timings_Z : list (NativeProfiler.op exact_Z) :=
  [ NativeProfiler.Update (D:=exact_Z) instr_a 1;
    NativeProfiler.Update (D:=exact_Z) instr_b 2;
    NativeProfiler.ClearStats;
    NativeProfiler.Update (D:=exact_Z) instr_b 3;
    NativeProfiler.Update (D:=exact_Z) instr_a 4;
    NativeProfiler.Update (D:=exact_Z) instr_b 5 ].

(** *** Elapsed times that double addition adds exactly *)

(** Whole numbers as doubles. *)
Fixpoint double_of_pos (p : positive) : float :=
  match p with
  | xH => 1%float
  | xO p => (2 * double_of_pos p)%float
  | xI p => (2 * double_of_pos p + 1)%float
  end.

Definition double_of_Z (z : Z) : float :=
  match z with
  | Z0 => 0%float
  | Zpos p => double_of_pos p
  | Zneg p => (- double_of_pos p)%float
  end.

(** A sequence of operations whose elapsed times are given as whole numbers
    of a unit, [unit z] being the double for [z] units, as the calls the
    profiler receives. *)
Definition in_units (unit : Z → float) (o : NativeProfiler.op exact_Z)
  : NativeProfiler.op ieee_double :=
  match o with
  | NativeProfiler.Start => NativeProfiler.Start
  | NativeProfiler.Stop => NativeProfiler.Stop
  | NativeProfiler.Update instr z =>
      NativeProfiler.Update (D:=ieee_double) instr (unit z)
  | NativeProfiler.ClearStats => NativeProfiler.ClearStats
  end.

Definition elapsed_of (o : NativeProfiler.op exact_Z) : Z :=
  match o with
  | NativeProfiler.Update _ z => z
  | _ => 0
  end.

Definition total_elapsed (ops : list (NativeProfiler.op exact_Z)) : Z :=
  foldr (λ o acc, elapsed_of o + acc) 0 ops.

(** A record whose time is given in units, as the profiler holds it. *)
Definition stats_in_units (unit : Z → float) (r : InstructionStats.t exact_Z)
  : InstructionStats.t ieee_double :=
  InstructionStats.mk (D:=ieee_double) (InstructionStats.instr_repr r)
    (InstructionStats.pyinstr_hash r) (InstructionStats.count r)
    (unit (InstructionStats.time_total r)).

(** The profiler state on doubles is the state on whole numbers, in units;
    the times of the latter are non-negative and no record exceeds the
    total. *)
Record follows (unit : Z → float) (pZ : NativeProfiler.t exact_Z)
    (pD : NativeProfiler.t ieee_double) : Prop := {
  follows_total : NativeProfiler.t_total pD = unit (NativeProfiler.t_total pZ);
  follows_stats : NativeProfiler.instr2stats pD
                  = stats_in_units unit <$> NativeProfiler.instr2stats pZ;
  follows_nonneg : 0 ≤ NativeProfiler.t_total pZ;
  follows_bound : ∀ k r, NativeProfiler.instr2stats pZ !! k = Some r →
                  0 ≤ InstructionStats.time_total r
                  ≤ NativeProfiler.t_total pZ
}.

(** ** Interpreters *)

(** The header only declares [Interpreter], the [fire] member of the
    instruction classes and [create_interpreter]; their bodies are not in
    the header.  The definitions of this part are therefore taken from the
    specification, at the level of the cells of the slot storage: a slot
    holds the object it refers to, and a kernel is a function of the
    objects it is handed. *)

Module Interpreter.
(** Modelled from the spec: the slot storage of an interpreter, missing
    from the sources, is an array of [n_locs] handles, all null ([None])
    initially. *)
Abbreviation storage := (list (option cgtObject)).

Definition slot (m : MemLocation.t) : nat := N.to_nat (MemLocation.index m).


(** Modelled from the spec: [get(location)], missing from the sources,
    returns the handle in the slot; a slot beyond the storage is the error
    SlotOutOfRange. *)
Definition get (st : storage) (m : MemLocation.t) : option (option cgtObject) :=
  st !! slot m.

(** Modelled from the spec: [set(location, object)], missing from the
    sources, replaces the occupant of the slot. *)
Definition set (st : storage) (m : MemLocation.t) (o : cgtObject)
  : option storage :=
  if decide (slot m < length st)%nat then Some (<[slot m := Some o]> st)
  else None.

(** Modelled from the spec: [getarg(index)], missing from the sources,
    returns the [index]-th object of the current argument tuple. *)
Definition getarg (args : list cgtObject) (ind : Z) : option cgtObject :=
  if decide (0 ≤ ind) then args !! Z.to_nat ind else None.

(** A read by an instruction: a null slot is the error UninitializedRead. *)
Definition read (st : storage) (m : MemLocation.t) : option cgtObject :=
  o ← get st m; o.
End Interpreter.

(** Modelled from the spec: [scalar_as_size] of the object API, missing from
    the sources, reads a shape component from a scalar holding a
    non-negative integer. *)
Definition scalar_as_size (o : cgtObject) : option N :=
  match o with
  | cgtArray _ _ [] (Some [v]) => if decide (0 ≤ v) then Some (Z.to_N v) else None
  | _ => None
  end.

Definition is_array (o : cgtObject) : bool :=
  match o with cgtArray _ _ _ _ => true | cgtTuple _ => false end.

(** Modelled from the spec: the object an instruction produces when it
    fires (the bodies of [fire] are missing from the sources).
    LoadArgument fetches its argument; Alloc reads its shape from its
    read-slots and allocates an uninitialised array on the device of its
    write-slot; BuildTup collects its read-slots; ReturnByRef hands the
    objects of its read-slots and the array already in its write-slot to
    its kernel, which fills that array; ReturnByVal returns what its kernel
    returns.  [None] is a fatal error. *)
Definition produce (i : Instruction.t) (args : list cgtObject)
    (st : Interpreter.storage) : option cgtObject :=
  match i with
  | Instruction.OfLoadArgument _ ind _ _ => Interpreter.getarg args ind
  | Instruction.OfAlloc _ dtype readlocs writeloc =>
      objs ← mapM (Interpreter.read st) readlocs;
      shape ← mapM scalar_as_size objs;
      Some (cgtArray dtype (MemLocation.devtype writeloc) shape None)
  | Instruction.OfBuildTup _ readlocs _ =>
      objs ← mapM (Interpreter.read st) readlocs;
      Some (cgtTuple objs)
  | Instruction.OfReturnByRef _ readlocs writeloc callable =>
      reads ← mapM (Interpreter.read st) readlocs;
      write ← Interpreter.read st writeloc;
      if is_array write then
        match ByRefCallable.call callable reads write with
        | Returned (_, written) => Some written
        | NullFunctionPointer => None
        end
      else None
  | Instruction.OfReturnByVal _ readlocs _ callable =>
      reads ← mapM (Interpreter.read st) readlocs;
      match ByValCallable.call callable reads with
      | Returned o => Some o
      | NullFunctionPointer => None
      end
  end.

(** Modelled from the spec: [fire(interpreter)], missing from the sources,
    stores the produced object at the write-slot with [set]. *)
Definition fire (i : Instruction.t) (args : list cgtObject)
    (st : Interpreter.storage) : option Interpreter.storage :=
  o ← produce i args st;
  Interpreter.set st (Instruction.get_writeloc i) o.

(** Modelled from the spec: the output tuple, gathered from the output
    locations at the end of a run. *)
Definition gather (output_locs : list MemLocation.t) (st : Interpreter.storage)
  : option (cgtObject * Interpreter.storage) :=
  outs ← mapM (Interpreter.read st) output_locs;
  Some (cgtTuple outs, st).

Module SequentialInterpreter.
Fixpoint fire_all (prog : list Instruction.t) (args : list cgtObject)
    (st : Interpreter.storage) : option Interpreter.storage :=
  match prog with
  | [] => Some st
  | i :: prog => st' ← fire i args st; fire_all prog args st'
  end.

(** Modelled from the spec: [run] of the sequential interpreter, missing
    from the sources: check the arity, fire the instructions in program
    order, gather the outputs. *)
Definition run (eg : ExecutionGraph.t) (output_locs : list MemLocation.t)
    (st : Interpreter.storage) (args : list cgtObject)
  : option (cgtObject * Interpreter.storage) :=
  if decide (N.of_nat (length args) = ExecutionGraph.n_args eg) then
    st' ← fire_all (ExecutionGraph.instrs eg) args st;
    gather output_locs st'
  else None.
End SequentialInterpreter.

(** *** Dependencies *)

Definition slots_of (ms : list MemLocation.t) : list nat :=
  Interpreter.slot <$> ms.

(** Modelled from the spec: a later instruction [b] depends on an earlier
    [a] when [a] writes a cell that [b] reads (flow), both write the same
    cell (output), or [b] writes a cell that [a] reads (anti).  A cell is
    a slot index: [MemLocation] has no equality of its own and the device
    tag does not address the storage. *)
Definition depends (a b : Instruction.t) : bool :=
  bool_decide (Interpreter.slot (Instruction.get_writeloc a)
                 ∈ slots_of (Instruction.get_readlocs b))
  || bool_decide (Interpreter.slot (Instruction.get_writeloc b)
                  = Interpreter.slot (Instruction.get_writeloc a))
  || bool_decide (Interpreter.slot (Instruction.get_writeloc b)
                    ∈ slots_of (Instruction.get_readlocs a)).

(** An edge of the DAG between the instructions at two positions. *)
Definition edge (prog : list Instruction.t) (i j : nat) : bool :=
  match prog !! i, prog !! j with
  | Some a, Some b => depends a b
  | _, _ => false
  end.



Module ParallelInterpreter.
(** The tables computed once, when the interpreter is created. *)
Record dag := Dag {
  n_preds : list nat;
  succs : list (list nat)
}.


(** The state of a run: the shared slots, the pending-predecessor counts,
    the ready queue, the instructions handed to workers and the
    instructions that have fired, oldest first. *)
Record state := State {
  slots : Interpreter.storage;
  pending : list nat;
  queue : list nat;
  running : list nat;
  fired : list nat
}.

Definition ready (n_preds : list nat) : list nat :=
  filter (λ j, n_preds !! j = Some 0%nat) (seq 0 (length n_preds)).

Definition start (d : dag) (st : Interpreter.storage) : state :=
  State st (n_preds d) (ready (n_preds d)) [] [].

(** One successor learns that a predecessor has fired. *)
Definition release (pq : list nat * list nat) (j : nat) : list nat * list nat :=
  match pq.1 !! j with
  | Some (S c) =>
      (<[j := c]> pq.1, if decide (c = 0)%nat then pq.2 ++ [j] else pq.2)
  | _ => pq
  end.

(** Instruction [k] has fired, leaving the slots [st]. *)
Definition complete (d : dag) (k : nat) (st : Interpreter.storage)
    (s : state) : state :=
  let pq := foldl release (pending s, queue s) (default [] (succs d !! k)) in
  State st pq.1 pq.2 (running s) (fired s ++ [k]).

Definition take (q : list nat) (s : state) : state :=
  State (slots s) (pending s) q (running s) (fired s).

Definition remove (k : nat) (s : state) : state :=
  State (slots s) (pending s) (queue s)
        (filter (λ j, j ≠ k) (running s)) (fired s).

(** The steps of the scheduler; [None] is a fatal error.  The head of the
    ready queue is fired at once when it is quick and handed to a free
    worker otherwise; a worker fires its instruction when it finishes. *)
Inductive step (prog : list Instruction.t) (d : dag) (num_threads : nat)
    (args : list cgtObject) : state → option state → Prop :=
| step_inline s k q i :
    queue s = k :: q → prog !! k = Some i → Instruction.quick i = true →
    step prog d num_threads args s
      ((λ st, complete d k st (take q s)) <$> fire i args (slots s))
| step_dispatch s k q i :
    queue s = k :: q → prog !! k = Some i → Instruction.quick i = false →
    (length (running s) < num_threads)%nat →
    step prog d num_threads args s
      (Some (State (slots s) (pending s) q (running s ++ [k]) (fired s)))
| step_finish s k i :
    k ∈ running s → prog !! k = Some i →
    step prog d num_threads args s
      ((λ st, complete d k st (remove k s)) <$> fire i args (slots s)).

(** A run goes on until all instructions have fired or one fails. *)
Inductive runs (prog : list Instruction.t) (d : dag) (num_threads : nat)
    (args : list cgtObject) : state → option state → Prop :=
| runs_done s :
    length (fired s) = length prog →
    runs prog d num_threads args s (Some s)
| runs_fatal s :
    (length (fired s) < length prog)%nat →
    step prog d num_threads args s None →
    runs prog d num_threads args s None
| runs_step s s' r :
    (length (fired s) < length prog)%nat →
    step prog d num_threads args s (Some s') →
    runs prog d num_threads args s' r →
    runs prog d num_threads args s r.

(** Modelled from the spec: [run] of the parallel interpreter, missing from
    the sources. *)
Definition run (eg : ExecutionGraph.t) (output_locs : list MemLocation.t)
    (num_threads : nat) (d : dag)
    (st : Interpreter.storage) (args : list cgtObject)
    (res : option (cgtObject * Interpreter.storage)) : Prop :=
  if decide (N.of_nat (length args) = ExecutionGraph.n_args eg) then
    ∃ r, runs (ExecutionGraph.instrs eg) d num_threads args (start d st) r
         ∧ res = (s ← r; gather output_locs (slots s))
  else res = None.
End ParallelInterpreter.

(** The two interpreters behind the [Interpreter] interface. *)
Inductive interpreter :=
| Sequential (eg : ExecutionGraph.t) (output_locs : list MemLocation.t)
| Parallel (eg : ExecutionGraph.t) (output_locs : list MemLocation.t)
           (num_threads : Z) (d : ParallelInterpreter.dag).


(** [run] through the interface: the results a run may end with. *)
Definition run (i : interpreter) (st : Interpreter.storage)
    (args : list cgtObject) (res : option (cgtObject * Interpreter.storage))
  : Prop :=
  match i with
  | Sequential eg output_locs =>
      res = SequentialInterpreter.run eg output_locs st args
  | Parallel eg output_locs num_threads d =>
      ParallelInterpreter.run eg output_locs (Z.to_nat num_threads) d st args res
  end.

(** *** Firing orders *)



(** The (prefixes of) topological orders of a DAG on the positions below
    [n]: each position comes once, after all the earlier positions it has
    an edge from. *)
Inductive topological_order (edge : nat → nat → bool) (n : nat)
  : list nat → Prop :=
| topological_nil : topological_order edge n []
| topological_snoc l k :
    topological_order edge n l → (k < n)%nat → k ∉ l →
    (∀ i, (i < k)%nat → edge i k = true → i ∈ l) →
    topological_order edge n (l ++ [k]).


(** The positions below [n] that are not in [l], in increasing order. *)
Definition rest (n : nat) (l : list nat) : list nat :=
  filter (λ j, j ∉ l) (seq 0 n).


(** *** Invariant of the scheduler *)




(** *** A small program *)


Definition doubled : cgtByValFun := λ _ reads,
  match reads with
  | [cgtArray dt dev shape (Some xs)] =>
      cgtArray dt dev shape (Some ((λ x, 2 * x) <$> xs))
  | _ => cgtTuple []
  end.

Definition loc (i : N) : MemLocation.t := MemLocation.make i cgtCPU.




(** ** Histories of the profiler *)

(** A sequence of calls [update(instr, elapsed)], oldest first. *)
Definition updates {D : arith} (us : list (InstructionPtr * num D))
  : list (NativeProfiler.op D) :=
  (λ u, NativeProfiler.Update u.1 u.2) <$> us.

(** The calls of a sequence that were made with the address [k]. *)
Definition history {D : arith} (k : N) (us : list (InstructionPtr * num D))
  : list (InstructionPtr * num D) :=
  filter (λ u, addr u.1 = k) us.

(** The record that the calls [h], all with one address, leave: the fresh
    record of the first call, bumped once for each later call. *)
Definition record_of {D : arith} (h : list (InstructionPtr * num D))
  : option (InstructionStats.t D) :=
  match h with
  | [] => None
  | u :: rest =>
      Some (foldl NativeProfiler.bump (NativeProfiler.fresh u.1 u.2)
                  (snd <$> rest))
  end.

(** An instruction built by one of the five public constructors. *)
Inductive constructed : Instruction.t → Prop :=
| constructed_LoadArgument repr h ind w :
    constructed (LoadArgument repr h ind w)
| constructed_Alloc repr h dt r w :
    constructed (Alloc repr h dt r w)
| constructed_BuildTup repr h r w :
    constructed (BuildTup repr h r w)
| constructed_ReturnByRef repr h r w c q :
    constructed (ReturnByRef repr h r w c q)
| constructed_ReturnByVal repr h r w c q :
    constructed (ReturnByVal repr h r w c q).

(** The class of an instruction, as its constructor of the model. *)
Definition class_of (i : Instruction.t) : InstructionKind :=
  match i with
  | Instruction.OfLoadArgument _ _ _ _ => LoadArgumentKind
  | Instruction.OfAlloc _ _ _ _ => AllocKind
  | Instruction.OfBuildTup _ _ _ => BuildTupKind
  | Instruction.OfReturnByRef _ _ _ _ => ReturnByRefKind
  | Instruction.OfReturnByVal _ _ _ _ => ReturnByValKind
  end.

(** A second instruction object at the address of [instr_b]. *)
Definition instr_b_reused : InstructionPtr :=
  {| addr := 8192;
     target := BuildTup "c" 3 [] (MemLocation.make 2 cgtCPU) |}.

Definition calls_double : list (InstructionPtr * num ieee_double) :=
  [ (instr_a, d0_1); (instr_b, d0_2); (instr_b_reused, d0_3) ].

(* ================================================================= *)
(** * Theorems *)

(** ** Callables *)

(** C8: a call of a by-reference callable bound to [f] and [d] is the call
    [f(d, reads, write)] and returns no value (only the written buffer is
    left); a call of a by-value callable bound to [g] and [d] returns the
    object [g(d, reads)]. *)
Theorem callable_call_bound
    (f : cgtByRefFun) (g : cgtByValFun) (d : voidp)
    (reads : list cgtObject) (write : cgtObject) :
  ByRefCallable.call (ByRefCallable.make (Some f) d) reads write
    = Returned (tt, f d reads write)
  ∧ ByValCallable.call (ByValCallable.make (Some g) d) reads
    = Returned (g d reads)
  ∧ ByRefCallable.data (ByRefCallable.make (Some f) d) = d
  ∧ ByValCallable.data (ByValCallable.make (Some g) d) = d.
Proof. repeat split. Qed.

(** C10: the default constructors leave [fptr] and [data] null, and since
    [operator()] does not test [fptr], every call of a default-constructed
    callable goes through the null function pointer. *)
Theorem default_callable_null (reads : list cgtObject) (write : cgtObject) :
  ByRefCallable.fptr ByRefCallable.default = None
  ∧ ByRefCallable.data ByRefCallable.default = NULL
  ∧ ByValCallable.fptr ByValCallable.default = None
  ∧ ByValCallable.data ByValCallable.default = NULL
  ∧ ByRefCallable.call ByRefCallable.default reads write = NullFunctionPointer
  ∧ ByValCallable.call ByValCallable.default reads = NullFunctionPointer.
Proof. repeat split. Qed.

(** ** Instructions *)

(** C4: [quick()] is true for every LoadArgument, Alloc and BuildTup
    whatever the constructor receives, and is the boolean handed to the
    constructor for ReturnByRef and ReturnByVal. *)
Theorem quick_by_kind
    (repr : string) (h ind : Z) (dt : cgtDtype)
    (r : list MemLocation.t) (w : MemLocation.t)
    (cr : ByRefCallable.t) (cv : ByValCallable.t) (q : bool) :
  Instruction.quick (LoadArgument repr h ind w) = true
  ∧ Instruction.quick (Alloc repr h dt r w) = true
  ∧ Instruction.quick (BuildTup repr h r w) = true
  ∧ Instruction.quick (ReturnByRef repr h r w cr q) = q
  ∧ Instruction.quick (ReturnByVal repr h r w cv q) = q.
Proof. repeat split. Qed.

(** C7: an instruction has one write-slot, the location given to its
    constructor, and its read-slots are the list given to its constructor;
    a LoadArgument, whose constructor takes no read-slots, has none. *)
Theorem readlocs_writeloc_as_constructed
    (repr : string) (h ind : Z) (dt : cgtDtype)
    (r : list MemLocation.t) (w : MemLocation.t)
    (cr : ByRefCallable.t) (cv : ByValCallable.t) (q : bool) :
  (Instruction.get_writeloc (LoadArgument repr h ind w) = w
   ∧ Instruction.get_readlocs (LoadArgument repr h ind w) = [])
  ∧ (Instruction.get_writeloc (Alloc repr h dt r w) = w
     ∧ Instruction.get_readlocs (Alloc repr h dt r w) = r)
  ∧ (Instruction.get_writeloc (BuildTup repr h r w) = w
     ∧ Instruction.get_readlocs (BuildTup repr h r w) = r)
  ∧ (Instruction.get_writeloc (ReturnByRef repr h r w cr q) = w
     ∧ Instruction.get_readlocs (ReturnByRef repr h r w cr q) = r)
  ∧ (Instruction.get_writeloc (ReturnByVal repr h r w cv q) = w
     ∧ Instruction.get_readlocs (ReturnByVal repr h r w cv q) = r).
Proof. repeat split. Qed.

(** ** Execution graph *)

Lemma after_id (ms : list ExecutionGraph.method) (g : ExecutionGraph.t) :
  ExecutionGraph.after ms g = g.
Proof.
  induction ms as [|m ms IH] in g |- *; [done|].
  unfold ExecutionGraph.after in *. simpl. rewrite <- (IH g) at 2.
  by destruct m.
Qed.

(** C6: a graph built from [(instrs, n_args, n_locs)] reports these three
    values and the length of [instrs], and still does after any sequence
    of calls of its member functions. *)
Theorem graph_accessors_stable
    (l : list Instruction.t) (na nl : N) (ms : list ExecutionGraph.method) :
  let g := ExecutionGraph.after ms (ExecutionGraph.make l na nl) in
  ExecutionGraph.instrs g = l
  ∧ ExecutionGraph.n_args g = na
  ∧ ExecutionGraph.n_locs g = nl
  ∧ ExecutionGraph.n_instrs g = N.of_nat (length l).
Proof. simpl. rewrite after_id. repeat split. Qed.

(** ** Native profiler *)

Section profiler.
Context {D : arith}.
Implicit Types (p : NativeProfiler.t D) (instr : InstructionPtr)
               (e : num D) (r : InstructionStats.t D).

Lemma update_lookup instr e p :
  NativeProfiler.instr2stats (NativeProfiler.update instr e p) !! addr instr
  = Some (match NativeProfiler.instr2stats p !! addr instr with
          | Some r => NativeProfiler.bump r e
          | None => NativeProfiler.fresh instr e
          end).
Proof.
  unfold NativeProfiler.update; simpl.
  destruct (NativeProfiler.instr2stats p !! addr instr);
    by rewrite lookup_insert_eq.
Qed.

Lemma update_lookup_ne instr e p (k : N) :
  k ≠ addr instr →
  NativeProfiler.instr2stats (NativeProfiler.update instr e p) !! k
  = NativeProfiler.instr2stats p !! k.
Proof.
  intros Hk. unfold NativeProfiler.update; simpl.
  destruct (NativeProfiler.instr2stats p !! addr instr);
    by rewrite lookup_insert_ne.
Qed.

(** The sum over the records when [+] is associative and commutative. *)
Section exact.
Hypothesis add_assoc : ∀ x y z : num D, add D x (add D y z) = add D (add D x y) z.
Hypothesis add_comm : ∀ x y : num D, add D x y = add D y x.

Lemma accumulate_swap (k1 k2 : N) r1 r2 (acc : num D) :
  NativeProfiler.accumulate k1 r1 (NativeProfiler.accumulate k2 r2 acc)
  = NativeProfiler.accumulate k2 r2 (NativeProfiler.accumulate k1 r1 acc).
Proof.
  unfold NativeProfiler.accumulate. rewrite <- !add_assoc. f_equal.
  apply add_comm.
Qed.

Lemma stats_sum_update instr e p :
  NativeProfiler.stats_sum (NativeProfiler.update instr e p)
  = add D (NativeProfiler.stats_sum p) e.
Proof.
  unfold NativeProfiler.stats_sum, NativeProfiler.update; simpl.
  destruct (NativeProfiler.instr2stats p !! addr instr) as [r|] eqn:Hk.
  - rewrite <- insert_delete_eq.
    rewrite map_fold_insert_L.
    + rewrite (map_fold_delete_L NativeProfiler.accumulate _ (addr instr) r
                 (NativeProfiler.instr2stats p));
        [|intros; apply accumulate_swap|done].
      unfold NativeProfiler.accumulate at 1 3; simpl. by rewrite add_assoc.
    + intros; apply accumulate_swap.
    + apply lookup_delete_eq.
  - rewrite map_fold_insert_L; [done | intros; apply accumulate_swap | done].
Qed.

Lemma additive_apply p (o : NativeProfiler.op D) :
  NativeProfiler.t_total p = NativeProfiler.stats_sum p →
  NativeProfiler.t_total (NativeProfiler.apply p o)
  = NativeProfiler.stats_sum (NativeProfiler.apply p o).
Proof.
  intros Hp. destruct o as [| |instr e|]; simpl; try done.
  - rewrite stats_sum_update. by rewrite Hp.
Qed.

Lemma additive_run (ops : list (NativeProfiler.op D)) p :
  NativeProfiler.t_total p = NativeProfiler.stats_sum p →
  NativeProfiler.t_total (NativeProfiler.run ops p)
  = NativeProfiler.stats_sum (NativeProfiler.run ops p).
Proof.
  revert p. induction ops as [|o ops IH]; intros p Hp; [done|].
  apply IH, additive_apply, Hp.
Qed.
End exact.
End profiler.

(** C2: [update(instr, e)] replaces an existing record of [instr] by the
    record with [count + 1] and [time_total + e], stores the fresh record
    [(repr, pyinstr_hash, 1, e)] when there is none, adds [e] to [t_total]
    and leaves every other record, and the flag, as they were. *)
Theorem update_spec (p : NativeProfiler.t ieee_double) (instr : InstructionPtr)
    (e : num ieee_double) :
  let p' := NativeProfiler.update instr e p in
  NativeProfiler.instr2stats p' !! addr instr
  = Some (match NativeProfiler.instr2stats p !! addr instr with
          | Some r =>
              InstructionStats.mk (D:=ieee_double) (InstructionStats.instr_repr r)
                (InstructionStats.pyinstr_hash r)
                (int_add (InstructionStats.count r) 1)
                (PrimFloat.add (InstructionStats.time_total r) e)
          | None =>
              InstructionStats.mk (D:=ieee_double) (Instruction.repr (target instr))
                (Instruction.pyinstr_hash (target instr)) 1 e
          end)
  ∧ NativeProfiler.t_total p' = PrimFloat.add (NativeProfiler.t_total p) e
  ∧ (∀ k : N, k ≠ addr instr →
       NativeProfiler.instr2stats p' !! k = NativeProfiler.instr2stats p !! k)
  ∧ NativeProfiler.is_on p' = NativeProfiler.is_on p.
Proof.
  simpl. split; [apply (update_lookup (D:=ieee_double))|].
  split; [done|]. split; [|done].
  intros k Hk. by apply (update_lookup_ne (D:=ieee_double)).
Qed.

(** C3, as stated, fails on doubles: after [clear_stats] and the updates
    (a, 0.1), (b, 0.2), (b, 0.3) the total is 0.1 + 0.2 + 0.3 =
    0.6000000000000001 while the records hold 0.1 and 0.2 + 0.3 = 0.5,
    whose sum is 0.6 in either order. *)
Lemma additivity_fails_on_double :
  let p := NativeProfiler.run timings_double
             (NativeProfiler.clear_stats NativeProfiler.native_profiler) in
  NativeProfiler.t_total p ≠ NativeProfiler.stats_sum p
  ∧ PrimFloat.eqb (NativeProfiler.t_total p) (NativeProfiler.stats_sum p) = false
  ∧ InstructionStats.time_total <$> NativeProfiler.get_instr_stats p
    = [d0_1; 0.5%float]
  ∧ PrimFloat.eqb (NativeProfiler.t_total p) (d0_1 + 0.5)%float = false
  ∧ PrimFloat.eqb (NativeProfiler.t_total p) (0.5 + d0_1)%float = false.
Proof.
  vm_compute. split; [intros H; discriminate H | repeat split].
Qed.

(** The profiler on doubles follows the profiler on whole numbers as long as
    the additions it makes are exact. *)
Section exact_inputs.
Context (unit : Z → float) (T : Z).
Hypothesis unit_0 : unit 0 = 0%float.
Hypothesis unit_add : ∀ a b, 0 ≤ a → 0 ≤ b → a + b ≤ T →
  PrimFloat.add (unit a) (unit b) = unit (a + b).

Lemma follows_clear_stats (pZ : NativeProfiler.t exact_Z)
    (pD : NativeProfiler.t ieee_double) :
  follows unit (NativeProfiler.clear_stats pZ) (NativeProfiler.clear_stats pD).
Proof.
  split; simpl.
  - by rewrite unit_0.
  - by rewrite fmap_empty.
  - done.
  - intros k r Hk. by rewrite lookup_empty in Hk.
Qed.

Lemma follows_update (pZ : NativeProfiler.t exact_Z)
    (pD : NativeProfiler.t ieee_double) (instr : InstructionPtr) (z : Z) :
  follows unit pZ pD → 0 ≤ z → NativeProfiler.t_total pZ + z ≤ T →
  follows unit (NativeProfiler.update (D:=exact_Z) instr z pZ)
          (NativeProfiler.update (D:=ieee_double) instr (unit z) pD).
Proof.
  intros [Ht Hs Hn Hb] Hz HT. split; simpl.
  - rewrite Ht. by apply unit_add.
  - rewrite Hs, lookup_fmap.
    destruct (NativeProfiler.instr2stats pZ !! addr instr) as [r|] eqn:Hr;
      simpl; rewrite fmap_insert; f_equal.
    unfold NativeProfiler.bump, stats_in_units; simpl. f_equal.
    destruct (Hb _ _ Hr). apply unit_add; lia.
  - lia.
  - intros k r.
    destruct (NativeProfiler.instr2stats pZ !! addr instr) as [r0|] eqn:Hr.
    + destruct (decide (k = addr instr)) as [->|Hk].
      * rewrite lookup_insert_eq. intros [= <-]. simpl.
        destruct (Hb _ _ Hr). lia.
      * rewrite lookup_insert_ne by done. intros Hk'.
        destruct (Hb _ _ Hk'). lia.
    + destruct (decide (k = addr instr)) as [->|Hk].
      * rewrite lookup_insert_eq. intros [= <-]. simpl. lia.
      * rewrite lookup_insert_ne by done. intros Hk'.
        destruct (Hb _ _ Hk'). lia.
Qed.

Lemma total_elapsed_nonneg (ops : list (NativeProfiler.op exact_Z)) :
  Forall (λ o, 0 ≤ elapsed_of o) ops → 0 ≤ total_elapsed ops.
Proof. induction 1; simpl; lia. Qed.

Lemma follows_run (ops : list (NativeProfiler.op exact_Z))
    (pZ : NativeProfiler.t exact_Z) (pD : NativeProfiler.t ieee_double) :
  follows unit pZ pD → Forall (λ o, 0 ≤ elapsed_of o) ops →
  NativeProfiler.t_total pZ + total_elapsed ops ≤ T →
  follows unit (NativeProfiler.run ops pZ)
          (NativeProfiler.run (in_units unit <$> ops) pD)
  ∧ NativeProfiler.t_total (NativeProfiler.run ops pZ) ≤ T.
Proof.
  revert pZ pD. induction ops as [|o ops IH]; intros pZ pD Hf Hops HT.
  { split; [done|]. simpl in *. lia. }
  apply Forall_cons in Hops as [Ho Hops]. simpl in HT.
  pose proof (total_elapsed_nonneg ops Hops) as Hrest.
  pose proof (follows_nonneg _ _ _ Hf) as Hn.
  destruct o as [| |instr z|]; simpl in Ho, HT;
    change (NativeProfiler.run (?o :: ops) pZ)
      with (NativeProfiler.run ops (NativeProfiler.apply pZ o));
    rewrite fmap_cons;
    change (NativeProfiler.run (?o :: ?l) pD)
      with (NativeProfiler.run l (NativeProfiler.apply pD o));
    apply IH; simpl; try done; try lia;
    first [ by destruct Hf
          | apply follows_update; [done | done | lia]
          | apply follows_clear_stats ].
Qed.

(** The sum over the records, on doubles and on whole numbers. *)
Lemma foldr_in_units (l : list (N * InstructionStats.t exact_Z)) :
  Forall (λ kr : N * InstructionStats.t exact_Z,
            0 ≤ InstructionStats.time_total kr.2) l →
  foldr (uncurry (NativeProfiler.accumulate (D:=exact_Z))) 0 l ≤ T →
  0 ≤ foldr (uncurry (NativeProfiler.accumulate (D:=exact_Z))) 0 l
  ∧ foldr (uncurry (λ k r, NativeProfiler.accumulate (D:=ieee_double) k
                             (stats_in_units unit r))) 0%float l
    = unit (foldr (uncurry (NativeProfiler.accumulate (D:=exact_Z))) 0 l).
Proof.
  unfold NativeProfiler.accumulate.
  induction 1 as [|[k r] l Hr Hl IH]; simpl in *; intros HT.
  { by rewrite unit_0. }
  destruct IH as [IH1 IH2]; [lia|].
  split; [lia|].
  rewrite IH2. apply unit_add; lia.
Qed.

Lemma stats_sum_in_units (pZ : NativeProfiler.t exact_Z)
    (pD : NativeProfiler.t ieee_double) :
  follows unit pZ pD →
  NativeProfiler.stats_sum pZ ≤ T →
  NativeProfiler.stats_sum pD = unit (NativeProfiler.stats_sum pZ).
Proof.
  intros [Ht Hs Hn Hb] HT. unfold NativeProfiler.stats_sum in *.
  rewrite Hs, map_fold_fmap, !map_fold_foldr in *.
  apply foldr_in_units; [|done].
  apply Forall_forall. intros [k r] Hkr%elem_of_map_to_list.
  by destruct (Hb _ _ Hkr).
Qed.
End exact_inputs.

(** C3, amended: on the doubles of the code, when the elapsed times are
    non-negative whole numbers of a unit and double addition adds such
    numbers without rounding up to the total of all elapsed times,
    [t_total] equals the sum of [time_total] over all records after
    [clear_stats] followed by any sequence of [start], [stop], [update] and
    [clear_stats]. *)
Theorem additivity_on_exact_inputs (unit : Z → float)
    (p0 : NativeProfiler.t ieee_double)
    (ops : list (NativeProfiler.op exact_Z)) :
  unit 0 = 0%float →
  Forall (λ o, 0 ≤ elapsed_of o) ops →
  (∀ a b, 0 ≤ a → 0 ≤ b → a + b ≤ total_elapsed ops →
          PrimFloat.add (unit a) (unit b) = unit (a + b)) →
  let p := NativeProfiler.run (in_units unit <$> ops)
             (NativeProfiler.clear_stats p0) in
  NativeProfiler.t_total p = NativeProfiler.stats_sum p.
Proof.
  intros H0 Hops Hadd. simpl.
  destruct (follows_run unit (total_elapsed ops) H0 Hadd ops
              (NativeProfiler.clear_stats NativeProfiler.native_profiler)
              (NativeProfiler.clear_stats p0)
              (follows_clear_stats unit H0 _ _) Hops ltac:(simpl; lia))
    as [Hf HT].
  pose proof (additive_run (D:=exact_Z) ltac:(simpl; intros; lia)
                ltac:(simpl; intros; lia) ops
                (NativeProfiler.clear_stats NativeProfiler.native_profiler)
                ltac:(unfold NativeProfiler.stats_sum; simpl;
                      by rewrite map_fold_empty)) as HZ.
  rewrite (stats_sum_in_units unit (total_elapsed ops) H0 Hadd _ _ Hf).
  - rewrite <- HZ. apply Hf.
  - by rewrite <- HZ.
Qed.

(** Double addition is exact on the whole numbers up to 15. *)
Lemma double_of_Z_add_15 (a b : Z) :
  0 ≤ a → 0 ≤ b → a + b ≤ 15 →
  PrimFloat.add (double_of_Z a) (double_of_Z b) = double_of_Z (a + b).
Proof.
  intros Ha Hb Hab.
  rewrite <- (Z2Nat.id a), <- (Z2Nat.id b) by done.
  assert (Z.to_nat a + Z.to_nat b ≤ 15)%nat as Hn by lia.
  revert Hn. generalize (Z.to_nat a) (Z.to_nat b). clear. intros n m Hn.
  do 16 (destruct n as [|n];
         [do 16 (destruct m as [|m]; [first [reflexivity | lia]|]); lia|]).
  lia.
Qed.

Lemma additivity_on_exact_inputs_witness :
  let p := NativeProfiler.run (in_units double_of_Z <$> timings_Z)
             (NativeProfiler.clear_stats NativeProfiler.native_profiler) in
  NativeProfiler.t_total p = NativeProfiler.stats_sum p
  ∧ NativeProfiler.t_total p = 12%float.
Proof.
  split; [|vm_compute; reflexivity].
  apply (additivity_on_exact_inputs double_of_Z).
  - reflexivity.
  - repeat constructor; simpl; lia.
  - intros a b Ha Hb Hab. apply double_of_Z_add_15; [done | done |].
    vm_compute in Hab. vm_compute. exact Hab.
Defined.

(** C5: after [clear_stats], [get_t_total] is 0.0 and [get_instr_stats] is
    empty, whatever the profiler went through before. *)
Theorem clear_stats_resets (p0 : NativeProfiler.t ieee_double)
    (ops : list (NativeProfiler.op ieee_double)) :
  let p := NativeProfiler.clear_stats (NativeProfiler.run ops p0) in
  NativeProfiler.get_t_total p = 0%float
  ∧ NativeProfiler.get_instr_stats p = []
  ∧ NativeProfiler.instr2stats p = ∅.
Proof.
  simpl. split; [done|]. split; [|done].
  unfold NativeProfiler.get_instr_stats; simpl.
  by rewrite map_to_list_empty.
Qed.

(** C9: [update] does not read the flag: with the profiler off it stores
    the same record, total and flag-independent state as with the
    profiler on, bumping the count and adding the elapsed time. *)
Theorem update_ignores_flag (p : NativeProfiler.t ieee_double)
    (instr : InstructionPtr) (e : num ieee_double) :
  NativeProfiler.is_on p = false →
  let p' := NativeProfiler.update instr e p in
  let q' := NativeProfiler.update instr e (NativeProfiler.start p) in
  NativeProfiler.is_on (NativeProfiler.start p) = true
  ∧ NativeProfiler.is_on p' = false
  ∧ NativeProfiler.instr2stats p' = NativeProfiler.instr2stats q'
  ∧ NativeProfiler.t_total p' = NativeProfiler.t_total q'
  ∧ NativeProfiler.t_total p' = PrimFloat.add (NativeProfiler.t_total p) e
  ∧ NativeProfiler.instr2stats p' !! addr instr
    = Some (match NativeProfiler.instr2stats p !! addr instr with
            | Some r =>
                InstructionStats.mk (D:=ieee_double) (InstructionStats.instr_repr r)
                  (InstructionStats.pyinstr_hash r)
                  (int_add (InstructionStats.count r) 1)
                  (PrimFloat.add (InstructionStats.time_total r) e)
            | None =>
                InstructionStats.mk (D:=ieee_double) (Instruction.repr (target instr))
                  (Instruction.pyinstr_hash (target instr)) 1 e
            end).
Proof.
  intros Hoff. simpl. repeat split; try done.
  apply (update_lookup (D:=ieee_double)).
Qed.

Lemma update_ignores_flag_witness :
  let p := NativeProfiler.update (D:=ieee_double) instr_b d0_2
             NativeProfiler.native_profiler in
  NativeProfiler.is_on p = false
  ∧ NativeProfiler.instr2stats
      (NativeProfiler.update (D:=ieee_double) instr_b d0_3 p) !! addr instr_b
    = Some (InstructionStats.mk (D:=ieee_double) "b" 2 2 0.5%float).
Proof.
  split; [reflexivity|].
  pose proof (update_ignores_flag
                (NativeProfiler.update (D:=ieee_double) instr_b d0_2
                   NativeProfiler.native_profiler)
                instr_b d0_3 eq_refl) as H.
  destruct H as (_ & _ & _ & _ & _ & H).
  refine (eq_trans H _). vm_compute. reflexivity.
Defined.

(** ** Firing orders *)

Section orders.
Context {St : Type} (act : nat → St → option St) (edge : nat → nat → bool).
Context (n : nat).

(** Two positions without an edge between them may fire in either order. *)
Hypothesis act_comm : ∀ i j s, (i < j)%nat → edge i j = false →
  act i s ≫= act j = act j s ≫= act i.









End orders.

(** ** Instructions fire on their own cells *)

Section cells.
Implicit Types (st : Interpreter.storage) (m : MemLocation.t)
               (i a b : Instruction.t) (args : list cgtObject).











End cells.

(** ** The scheduler *)

Section release.
Import ParallelInterpreter.





End release.

Section dag.
Import ParallelInterpreter.
Context (prog : list Instruction.t).












Lemma topological_order_closed (l : list nat) (i k : nat) :
  topological_order (edge prog) (length prog) l →
  k ∈ l → (i < k)%nat → edge prog i k = true → i ∈ l.
Proof.
  induction 1 as [|l k' Hl IH Hk Hkl Hpred]; intros Hin Hi He.
  - by apply elem_of_nil in Hin.
  - apply elem_of_app. left.
    apply elem_of_app in Hin as [Hin| ->%list_elem_of_singleton]; auto.
Qed.
End dag.

Section scheduler.
Import ParallelInterpreter.
Context (prog : list Instruction.t) (args : list cgtObject)
        (st0 : Interpreter.storage).
Implicit Types (F A p q : list nat) (σ : Interpreter.storage) (s : state).


















End scheduler.

(** ** Parallel and sequential interpreters *)




(** ** More on the native profiler *)

Section profiler_histories.
Context {D : arith}.
Implicit Types (p : NativeProfiler.t D) (r : InstructionStats.t D)
               (us : list (InstructionPtr * num D))
               (ops : list (NativeProfiler.op D)).

Lemma run_app ops1 ops2 p :
  NativeProfiler.run (ops1 ++ ops2) p
  = NativeProfiler.run ops2 (NativeProfiler.run ops1 p).
Proof. apply foldl_app. Qed.

Lemma run_updates_snoc us (u : InstructionPtr * num D) p :
  NativeProfiler.run (updates (us ++ [u])) p
  = NativeProfiler.update u.1 u.2 (NativeProfiler.run (updates us) p).
Proof. unfold updates. rewrite fmap_app, run_app. done. Qed.

Lemma record_of_snoc (h : list (InstructionPtr * num D))
    (u : InstructionPtr * num D) :
  record_of (h ++ [u])
  = Some (match record_of h with
          | Some r => NativeProfiler.bump r u.2
          | None => NativeProfiler.fresh u.1 u.2
          end).
Proof.
  destruct h as [|u0 rest]; simpl; [done|].
  by rewrite fmap_app, foldl_app.
Qed.

Lemma history_snoc (k : N) us (u : InstructionPtr * num D) :
  history k (us ++ [u])
  = history k us ++ (if decide (addr u.1 = k) then [u] else []).
Proof.
  unfold history. by rewrite filter_app.
Qed.

(** The fields of a record after further calls. *)
Lemma foldl_bump_fields r (es : list (num D)) :
  InstructionStats.instr_repr (foldl NativeProfiler.bump r es)
  = InstructionStats.instr_repr r
  ∧ InstructionStats.pyinstr_hash (foldl NativeProfiler.bump r es)
    = InstructionStats.pyinstr_hash r
  ∧ InstructionStats.time_total (foldl NativeProfiler.bump r es)
    = foldl (add D) (InstructionStats.time_total r) es.
Proof.
  revert r. induction es as [|e es IH]; intros r; [done|].
  simpl. destruct (IH (NativeProfiler.bump r e)) as (-> & -> & ->). done.
Qed.

Lemma int_add_1 (c : Z) :
  - 2 ^ 31 ≤ c + 1 < 2 ^ 31 → int_add c 1 = c + 1.
Proof. intros Hc. unfold int_add. rewrite Z.mod_small; lia. Qed.

Lemma foldl_bump_count r (es : list (num D)) :
  - 2 ^ 31 ≤ InstructionStats.count r →
  InstructionStats.count r + Z.of_nat (length es) < 2 ^ 31 →
  InstructionStats.count (foldl NativeProfiler.bump r es)
  = InstructionStats.count r + Z.of_nat (length es).
Proof.
  revert r. induction es as [|e es IH]; intros r Hlo Hhi; simpl in *; [lia|].
  rewrite IH; simpl; rewrite int_add_1; lia.
Qed.

(** The statistics never depend on the flag. *)
Lemma run_flag_irrelevant ops p1 p2 :
  NativeProfiler.t_total p1 = NativeProfiler.t_total p2 →
  NativeProfiler.instr2stats p1 = NativeProfiler.instr2stats p2 →
  NativeProfiler.t_total (NativeProfiler.run ops p1)
  = NativeProfiler.t_total (NativeProfiler.run ops p2)
  ∧ NativeProfiler.instr2stats (NativeProfiler.run ops p1)
    = NativeProfiler.instr2stats (NativeProfiler.run ops p2).
Proof.
  revert p1 p2. induction ops as [|o ops IH]; intros p1 p2 Ht Hs; [done|].
  apply IH; destruct o; simpl; by rewrite ?Ht, ?Hs.
Qed.
End profiler_histories.

(** X1: [t_total] after a sequence of updates is the total before it plus
    the elapsed times, added one after the other in the order of the
    calls. *)
Theorem t_total_in_call_order {D : arith} (p : NativeProfiler.t D)
    (us : list (InstructionPtr * num D)) :
  NativeProfiler.t_total (NativeProfiler.run (updates us) p)
  = foldl (add D) (NativeProfiler.t_total p) (snd <$> us).
Proof.
  induction us as [|u us IH] using rev_ind; [done|].
  rewrite run_updates_snoc, fmap_app, foldl_app. simpl. by rewrite IH.
Qed.

(** X2: after [clear_stats] and a sequence of updates, the record of an
    address is made by the calls with that address alone, in their order:
    there is none if there was no such call, and otherwise it is the fresh
    record of the first call bumped by each later one. *)
Theorem record_from_own_history {D : arith} (p : NativeProfiler.t D)
    (us : list (InstructionPtr * num D)) (k : N) :
  NativeProfiler.instr2stats
    (NativeProfiler.run (updates us) (NativeProfiler.clear_stats p)) !! k
  = record_of (history k us).
Proof.
  induction us as [|u us IH] using rev_ind; [done|].
  rewrite run_updates_snoc, history_snoc.
  destruct (decide (addr u.1 = k)) as [<-|Hk].
  - rewrite update_lookup, IH, record_of_snoc. done.
  - rewrite update_lookup_ne by done. by rewrite app_nil_r.
Qed.

(** X3: the record keeps the [repr] and the hash of the instruction that
    was passed on the first update with its address; later updates with
    that address do not refresh them, whatever instruction they pass. *)
Theorem record_identity_from_first_update {D : arith}
    (p : NativeProfiler.t D) (us : list (InstructionPtr * num D)) (k : N) :
  (λ r, (InstructionStats.instr_repr r, InstructionStats.pyinstr_hash r))
    <$> NativeProfiler.instr2stats
          (NativeProfiler.run (updates us) (NativeProfiler.clear_stats p)) !! k
  = (λ u, (Instruction.repr (target u.1), Instruction.pyinstr_hash (target u.1)))
      <$> head (history k us).
Proof.
  rewrite record_from_own_history.
  destruct (history k us) as [|u rest]; simpl; [done|].
  destruct (foldl_bump_fields (NativeProfiler.fresh u.1 u.2) (snd <$> rest))
    as (-> & -> & _).
  done.
Qed.

(** X4: the [time_total] of a record is the elapsed time of the first
    update with its address, to which the elapsed times of the later ones
    were added in order. *)
Theorem record_time_in_call_order {D : arith}
    (p : NativeProfiler.t D) (us : list (InstructionPtr * num D)) (k : N) :
  InstructionStats.time_total
    <$> NativeProfiler.instr2stats
          (NativeProfiler.run (updates us) (NativeProfiler.clear_stats p)) !! k
  = match history k us with
    | [] => None
    | u :: rest => Some (foldl (add D) u.2 (snd <$> rest))
    end.
Proof.
  rewrite record_from_own_history.
  destruct (history k us) as [|u rest]; simpl; [done|].
  destruct (foldl_bump_fields (NativeProfiler.fresh u.1 u.2) (snd <$> rest))
    as (_ & _ & ->).
  done.
Qed.

(** X5: as long as an address was updated fewer than 2^31 times since
    [clear_stats], the [count] of its record is the number of these
    updates. *)
Theorem record_count_is_number_of_updates {D : arith}
    (p : NativeProfiler.t D) (us : list (InstructionPtr * num D)) (k : N) :
  Z.of_nat (length (history k us)) < 2 ^ 31 →
  InstructionStats.count
    <$> NativeProfiler.instr2stats
          (NativeProfiler.run (updates us) (NativeProfiler.clear_stats p)) !! k
  = if decide (history k us = []) then None
    else Some (Z.of_nat (length (history k us))).
Proof.
  intros Hlen. rewrite record_from_own_history.
  destruct (history k us) as [|u rest]; simpl in *; [done|].
  rewrite foldl_bump_count; simpl; rewrite ?length_fmap; [|lia..].
  f_equal. lia.
Qed.

Lemma record_count_is_number_of_updates_witness :
  Z.of_nat (length (history 8192 calls_double)) < 2 ^ 31
  ∧ InstructionStats.count
      <$> NativeProfiler.instr2stats
            (NativeProfiler.run (updates calls_double)
               (NativeProfiler.clear_stats NativeProfiler.native_profiler))
          !! 8192%N
    = Some 2.
Proof.
  split; [vm_compute; reflexivity|].
  refine (eq_trans
            (record_count_is_number_of_updates (D:=ieee_double)
               NativeProfiler.native_profiler calls_double 8192 _) _);
    vm_compute; reflexivity.
Defined.

#[local] Instance key_le_trans {V : Type} : Transitive (@key_le V).
Proof. intros a b c. unfold key_le. lia. Qed.

#[local] Instance key_le_total {V : Type} : Total (@key_le V).
Proof. intros a b. unfold key_le. lia. Qed.

Section profiler_snapshot.
Context {D : arith}.
Implicit Types (p : NativeProfiler.t D) (r : InstructionStats.t D).

Lemma update_dom (instr : InstructionPtr) (e : num D) p :
  dom (NativeProfiler.instr2stats (NativeProfiler.update instr e p))
  = {[addr instr]} ∪ dom (NativeProfiler.instr2stats p).
Proof.
  unfold NativeProfiler.update; simpl.
  destruct (NativeProfiler.instr2stats p !! addr instr);
    by rewrite dom_insert_L.
Qed.

Lemma updates_dom (us : list (InstructionPtr * num D)) p :
  dom (NativeProfiler.instr2stats
         (NativeProfiler.run (updates us) (NativeProfiler.clear_stats p)))
  = list_to_set ((λ u, addr u.1) <$> us).
Proof.
  induction us as [|u us IH] using rev_ind; [apply dom_empty_L|].
  rewrite run_updates_snoc, update_dom, IH, fmap_snoc, list_to_set_snoc_L.
  simpl. apply (comm_L (∪)).
Qed.

Lemma get_instr_stats_length p :
  length (NativeProfiler.get_instr_stats p)
  = size (NativeProfiler.instr2stats p).
Proof.
  unfold NativeProfiler.get_instr_stats.
  by rewrite length_fmap, merge_sort_Permutation, length_map_to_list.
Qed.

Lemma strictly_sorted_keys {V : Type} (l : list (N * V)) :
  StronglySorted key_le l → NoDup (l.*1) →
  StronglySorted (λ a b, (a.1 < b.1)%N) l.
Proof.
  induction 1 as [|x l Hl IH Hx]; intros Hnd; [constructor|].
  rewrite fmap_cons in Hnd. apply NoDup_cons in Hnd as [Hx1 Hnd].
  constructor; [by apply IH|].
  apply Forall_forall. intros y Hy.
  rewrite Forall_forall in Hx. specialize (Hx y Hy). unfold key_le in Hx.
  assert (x.1 ≠ y.1); [|lia].
  intros Heq. apply Hx1. rewrite Heq. apply list_elem_of_fmap. eauto.
Qed.
End profiler_snapshot.

(** X6: after [clear_stats] and a sequence of updates, [get_instr_stats]
    returns as many records as there are distinct addresses among the
    updated instructions. *)
Theorem one_record_per_address {D : arith} (p : NativeProfiler.t D)
    (us : list (InstructionPtr * num D)) :
  length (NativeProfiler.get_instr_stats
            (NativeProfiler.run (updates us) (NativeProfiler.clear_stats p)))
  = size (list_to_set ((λ u, addr u.1) <$> us) : gset N).
Proof.
  rewrite get_instr_stats_length, <- (updates_dom us p). symmetry.
  apply size_dom.
Qed.

(** X7: [get_instr_stats] returns exactly the records of [instr2stats],
    each once, by strictly increasing address of their instructions. *)
Theorem get_instr_stats_by_address {D : arith} (p : NativeProfiler.t D) :
  ∃ l : list (N * InstructionStats.t D),
    NativeProfiler.get_instr_stats p = snd <$> l
    ∧ StronglySorted (λ a b, (a.1 < b.1)%N) l
    ∧ ∀ k r, (k, r) ∈ l ↔ NativeProfiler.instr2stats p !! k = Some r.
Proof.
  exists (merge_sort key_le (map_to_list (NativeProfiler.instr2stats p))).
  split; [done|]. split.
  - apply strictly_sorted_keys.
    + apply (StronglySorted_merge_sort key_le).
    + rewrite merge_sort_Permutation. apply NoDup_fst_map_to_list.
  - intros k r. rewrite merge_sort_Permutation. apply elem_of_map_to_list.
Qed.

(** X8: [clear_stats] forgets: the total and the records after it depend
    only on the operations that follow it, not on the operations or the
    state before it. *)
Theorem clear_stats_forgets {D : arith} (p q : NativeProfiler.t D)
    (ops1 ops2 : list (NativeProfiler.op D)) :
  NativeProfiler.t_total
    (NativeProfiler.run (ops1 ++ NativeProfiler.ClearStats :: ops2) p)
  = NativeProfiler.t_total
      (NativeProfiler.run ops2 (NativeProfiler.clear_stats q))
  ∧ NativeProfiler.instr2stats
      (NativeProfiler.run (ops1 ++ NativeProfiler.ClearStats :: ops2) p)
    = NativeProfiler.instr2stats
        (NativeProfiler.run ops2 (NativeProfiler.clear_stats q)).
Proof.
  rewrite run_app.
  change (NativeProfiler.run (NativeProfiler.ClearStats :: ops2)
            (NativeProfiler.run ops1 p))
    with (NativeProfiler.run ops2
            (NativeProfiler.clear_stats (NativeProfiler.run ops1 p))).
  by apply run_flag_irrelevant.
Qed.

(** X9: updates of instructions at different addresses commute on the
    records: either order of the two calls leaves the same [instr2stats]. *)
Theorem updates_commute_on_records {D : arith} (p : NativeProfiler.t D)
    (a b : InstructionPtr) (ea eb : num D) :
  addr a ≠ addr b →
  NativeProfiler.instr2stats
    (NativeProfiler.update a ea (NativeProfiler.update b eb p))
  = NativeProfiler.instr2stats
      (NativeProfiler.update b eb (NativeProfiler.update a ea p)).
Proof.
  intros Hab. apply map_eq. intros k.
  destruct (decide (k = addr a)) as [->|Hka].
  - rewrite update_lookup, !update_lookup_ne, update_lookup by done. done.
  - destruct (decide (k = addr b)) as [->|Hkb].
    + rewrite update_lookup_ne, !update_lookup, update_lookup_ne by done.
      done.
    + by rewrite !update_lookup_ne.
Qed.

Lemma updates_commute_on_records_witness :
  addr instr_a ≠ addr instr_b
  ∧ NativeProfiler.instr2stats
      (NativeProfiler.update (D:=ieee_double) instr_a d0_1
         (NativeProfiler.update (D:=ieee_double) instr_b d0_2
            NativeProfiler.native_profiler))
    = NativeProfiler.instr2stats
        (NativeProfiler.update (D:=ieee_double) instr_b d0_2
           (NativeProfiler.update (D:=ieee_double) instr_a d0_1
              NativeProfiler.native_profiler)).
Proof.
  assert (addr instr_a ≠ addr instr_b) as H by (vm_compute; discriminate).
  split; [exact H|].
  exact (updates_commute_on_records (D:=ieee_double)
           NativeProfiler.native_profiler instr_a instr_b d0_1 d0_2 H).
Defined.

(** X10: only [start] and [stop] change the flag: a sequence of updates
    and [clear_stats] leaves [is_on] as it found it. *)
Theorem flag_changed_by_start_stop_only {D : arith} (p : NativeProfiler.t D)
    (ops : list (NativeProfiler.op D)) :
  Forall (λ o, o ≠ NativeProfiler.Start ∧ o ≠ NativeProfiler.Stop) ops →
  NativeProfiler.is_on (NativeProfiler.run ops p) = NativeProfiler.is_on p.
Proof.
  revert p. induction ops as [|o ops IH]; intros p Hops; [done|].
  apply Forall_cons in Hops as [[Hstart Hstop] Hops].
  simpl. rewrite (IH _ Hops). by destruct o.
Qed.

Lemma flag_changed_by_start_stop_only_witness :
  Forall (λ o, o ≠ NativeProfiler.Start ∧ o ≠ NativeProfiler.Stop)
         (NativeProfiler.ClearStats :: updates calls_double)
  ∧ NativeProfiler.is_on
      (NativeProfiler.run (NativeProfiler.ClearStats :: updates calls_double)
         (NativeProfiler.start NativeProfiler.native_profiler))
    = true.
Proof.
  assert (Forall (λ o : NativeProfiler.op ieee_double,
                    o ≠ NativeProfiler.Start ∧ o ≠ NativeProfiler.Stop)
                 (NativeProfiler.ClearStats :: updates calls_double)) as H.
  { repeat constructor; discriminate. }
  split; [exact H|].
  exact (flag_changed_by_start_stop_only
           (NativeProfiler.start NativeProfiler.native_profiler) _ H).
Defined.

(** ** More on the instructions *)

(** X11: for every instruction built by one of the five constructors,
    [kind()] names the class of the instruction, so that a user may
    downcast on it. *)
Theorem kind_names_the_class (i : Instruction.t) :
  constructed i → Instruction.kind i = class_of i.
Proof. by destruct 1. Qed.

Lemma kind_names_the_class_witness :
  constructed (Alloc "buf" 3 8 [loc 1] (loc 2))
  ∧ Instruction.kind (Alloc "buf" 3 8 [loc 1] (loc 2)) = AllocKind.
Proof.
  split; [constructor|].
  exact (kind_names_the_class _ (constructed_Alloc "buf" 3 8 [loc 1] (loc 2))).
Defined.

(** X12: an instruction built by one of the five constructors that is not
    quick is a kernel call, ReturnByRef or ReturnByVal, built with
    [quick = false]; one of kind LoadArgument has no read-slots. *)
Theorem not_quick_is_kernel_call (i : Instruction.t) :
  constructed i →
  (Instruction.quick i = false →
   Instruction.kind i = ReturnByRefKind ∨ Instruction.kind i = ReturnByValKind)
  ∧ (Instruction.kind i = LoadArgumentKind → Instruction.get_readlocs i = []).
Proof. destruct 1; simpl; split; intros; try done; auto. Qed.

Lemma not_quick_is_kernel_call_witness :
  let i := ReturnByVal "dbl" 5 [loc 0] (loc 3)
             (ByValCallable.make (Some doubled) NULL) false in
  constructed i
  ∧ (Instruction.kind i = ReturnByRefKind ∨ Instruction.kind i = ReturnByValKind).
Proof.
  split; [constructor|].
  exact (proj1 (not_quick_is_kernel_call _
                  (constructed_ReturnByVal "dbl" 5 [loc 0] (loc 3)
                     (ByValCallable.make (Some doubled) NULL) false))
               eq_refl).
Defined.
